(** * InputField: the presentational control of [src/MyComponent.jsx]

    The control is a React function component.  One call of the component
    function maps the caller's props and the two hook cells
    ([showPassword], [isFocused]) to an element tree; the closures stored in
    the tree as event handlers are kept here as the list of effects they
    perform when the host invokes them (a state setter, or a call of one of
    the caller's callbacks).  Dispatching a user event looks the handler up in
    the tree that was rendered, commits its state updates and reports the
    callbacks it invoked. *)

From Stdlib Require Import Ascii String List Bool.
Import ListNotations.
Local Open Scope string_scope.

(** ** JavaScript values the component inspects *)

Module JS.

(** Truthiness of [string | undefined]: [undefined] and [''] are falsy. *)
Definition truthy (o : option string) : bool :=
  match o with
  | Some s => negb (s =? "")
  | None => false
  end.

(** A destructuring default [x = d]: used when the prop is [undefined]. *)
Definition default {A : Type} (d : A) (o : option A) : A :=
  match o with
  | Some a => a
  | None => d
  end.

(** Text React puts in the DOM for a [string | undefined] child:
    [undefined] renders nothing. *)
Definition child_text (o : option string) : string := default "" o.

(** [c && e] for an element [e]: React renders [e] when [c] is truthy and
    nothing for [false], [''] or [undefined]. *)
Definition and_then {A : Type} (c : bool) (e : A) : option A :=
  if c then Some e else None.

End JS.

(** ** The props interface (lines 4-21) *)

Inductive Size := sm | md | lg.
Inductive InputType := text | email | password.
Inductive Theme := light | dark.

(** The event object handed to [onChange]; only [target.value] is read by
    the callers in this file. *)
Record ChangeEvent := { target_value : string }.

Module Props.
(** Every prop is optional ([?:]).  [variant] is kept as the raw string the
    [switch] of [getVariantClasses] inspects, so that its [default:] branch
    is reachable by a value outside the declared union.  The callbacks are
    opaque to the control: [OnChange] and [OnClear] are the caller's
    function values. *)
Record t (OnChange OnClear : Type) : Type := mk {
  value : option string;
  onChange : option OnChange;
  label : option string;
  placeholder : option string;
  helperText : option string;
  errorMessage : option string;
  disabled : option bool;
  invalid : option bool;
  loading : option bool;
  variant : option string;
  size : option Size;
  type : option InputType;
  showClearButton : option bool;
  theme : option Theme;
  onClear : option OnClear;
  className : option string
}.
Arguments mk {OnChange OnClear}.
Arguments value {OnChange OnClear}.
Arguments onChange {OnChange OnClear}.
Arguments label {OnChange OnClear}.
Arguments placeholder {OnChange OnClear}.
Arguments helperText {OnChange OnClear}.
Arguments errorMessage {OnChange OnClear}.
Arguments disabled {OnChange OnClear}.
Arguments invalid {OnChange OnClear}.
Arguments loading {OnChange OnClear}.
Arguments variant {OnChange OnClear}.
Arguments size {OnChange OnClear}.
Arguments type {OnChange OnClear}.
Arguments showClearButton {OnChange OnClear}.
Arguments theme {OnChange OnClear}.
Arguments onClear {OnChange OnClear}.
Arguments className {OnChange OnClear}.

(** [<InputField />] with no attribute at all. *)
Definition empty {OnChange OnClear : Type} : t OnChange OnClear :=
  mk None None None None None None None None None None None None None None
     None None.
End Props.

Abbreviation InputFieldProps := Props.t.

(** ** Hook cells, effects and the element tree *)

(** The two [useState] cells (lines 42-43). *)
Record State := { showPassword : bool; isFocused : bool }.

(** [useState(false)] twice. *)
Definition initialState : State :=
  {| showPassword := false; isFocused := false |}.

(** The three [useId()] results (lines 44-46), pairwise distinct. *)
Inductive ElementId := inputId | helperTextId | errorId.

Inductive Icon := Eye | EyeOff | X | Loader2.

Record IconEl := { icon : Icon; icon_className : string }.

Section Tree.
Context {OnChange OnClear : Type}.

(** A call of one of the caller's callbacks. *)
Inductive Call :=
| call_onClear (f : OnClear)
| call_onChange (f : OnChange) (e : ChangeEvent).

(** What a handler closure does when the host runs it. *)
Inductive Effect :=
| setShowPassword (b : bool)
| setIsFocused (b : bool)
| invoke (c : Call).

Definition Handler := list Effect.

Record LabelEl := {
  label_htmlFor : ElementId;
  label_className : string;
  label_child : string
}.

Record InputEl := {
  input_id : ElementId;
  input_type : InputType;
  input_value : string;
  input_onChange : option OnChange;
  input_placeholder : option string;
  input_disabled : bool;
  aria_invalid : bool;
  aria_describedby : option ElementId;
  input_className : string;
  input_onFocus : Handler;
  input_onBlur : Handler
}.

Record ButtonEl := {
  button_onClick : Handler;
  button_className : string;
  button_aria_label : string;
  button_child : IconEl
}.

Record FooterEl := {
  footer_id : ElementId;
  footer_className : string;
  footer_child : option string
}.

(** The tree returned at lines 109-201.  The two wrapper [div]s around the
    input and the icons carry constant class names only and are left
    implicit; [None] is a conditional child that was not rendered. *)
Record Rendered := {
  root_className : string;
  label_el : option LabelEl;
  input_el : InputEl;
  spinner_el : option IconEl;
  clear_button : option ButtonEl;
  password_toggle : option ButtonEl;
  footer_el : option FooterEl
}.

(** Elements that carry an [id] attribute. *)
Inductive Node :=
| InputNode (e : InputEl)
| FooterNode (f : FooterEl).

Definition ElementId_eqb (a b : ElementId) : bool :=
  match a, b with
  | inputId, inputId | helperTextId, helperTextId | errorId, errorId => true
  | _, _ => false
  end.

(** [document.getElementById] restricted to the rendered tree. *)
Definition getElementById (r : Rendered) (i : ElementId) : option Node :=
  if ElementId_eqb (input_id (input_el r)) i then Some (InputNode (input_el r))
  else match footer_el r with
       | Some f => if ElementId_eqb (footer_id f) i then Some (FooterNode f)
                   else None
       | None => None
       end.

(** Text visible in the footer message region; nothing when the region is
    not rendered. *)
Definition footer_text (r : Rendered) : string :=
  match footer_el r with
  | Some f => JS.child_text (footer_child f)
  | None => ""
  end.

(** State after the setters of a handler have been committed. *)
Definition apply_effect (st : State) (e : Effect) : State :=
  match e with
  | setShowPassword b => {| showPassword := b; isFocused := isFocused st |}
  | setIsFocused b => {| showPassword := showPassword st; isFocused := b |}
  | invoke _ => st
  end.

Definition commit (st : State) (h : Handler) : State :=
  fold_left apply_effect h st.

(** Callbacks a handler invoked, in order. *)
Fixpoint calls (h : Handler) : list Call :=
  match h with
  | [] => []
  | invoke c :: h' => c :: calls h'
  | _ :: h' => calls h'
  end.

Definition run (h : Handler) (st : State) : State * list Call :=
  (commit st h, calls h).

End Tree.

Arguments Call : clear implicits.
Arguments Effect : clear implicits.
Arguments Handler : clear implicits.
Arguments InputEl : clear implicits.
Arguments ButtonEl : clear implicits.
Arguments Rendered : clear implicits.
Arguments Node : clear implicits.

(** ** The component function (lines 23-202) *)

Section InputField.
Context {OnChange OnClear : Type}.
Variable props : InputFieldProps OnChange OnClear.
Variable st : State.

(** Destructured props with their defaults (lines 23-41).  The declared
    interface has no further member, so the rest object [...props] spread on
    the input is empty. *)
Definition value : string := JS.default "" (Props.value props).
Definition onChange : option OnChange := Props.onChange props.
Definition label : option string := Props.label props.
Definition placeholder : option string := Props.placeholder props.
Definition helperText : option string := Props.helperText props.
Definition errorMessage : option string := Props.errorMessage props.
Definition disabled : bool := JS.default false (Props.disabled props).
Definition invalid : bool := JS.default false (Props.invalid props).
Definition loading : bool := JS.default false (Props.loading props).
Definition variant : string := JS.default "outlined" (Props.variant props).
Definition size : Size := JS.default md (Props.size props).
Definition type : InputType := JS.default text (Props.type props).
Definition showClearButton : bool :=
  JS.default false (Props.showClearButton props).
Definition theme : Theme := JS.default light (Props.theme props).
Definition onClear : option OnClear := Props.onClear props.
Definition className : string := JS.default "" (Props.className props).

(** Lines 48-51. *)
Definition isPassword : bool :=
  match type with password => true | _ => false end.

Definition inputType : InputType :=
  if isPassword then (if showPassword st then text else password) else type.

Definition hasError : bool := invalid || JS.truthy errorMessage.

(** [value && value.length > 0], as the boolean its truthiness is. *)
Definition hasValue : bool :=
  negb (value =? "") && Nat.ltb 0 (String.length value).

Definition sizeClasses (s : Size) : string :=
  match s with
  | sm => "px-3 py-2 text-sm"
  | md => "px-4 py-3 text-base"
  | lg => "px-5 py-4 text-lg"
  end.

Definition iconSizeClasses (s : Size) : string :=
  match s with
  | sm => "w-4 h-4"
  | md => "w-5 h-5"
  | lg => "w-6 h-6"
  end.

Definition baseClasses : string :=
  "w-full rounded-lg border transition-all duration-200 focus:outline-none focus:ring-2".

(** Lines 67-93. *)
Definition getVariantClasses : string :=
  if disabled then
    baseClasses ++ " opacity-50 cursor-not-allowed bg-gray-100 border-gray-200 text-gray-400"
  else if hasError then
    if variant =? "filled" then
      baseClasses ++ " bg-red-50 border-red-200 text-red-900 focus:ring-red-500 focus:border-red-500"
    else if variant =? "ghost" then
      baseClasses ++ " bg-transparent border-transparent border-b-red-500 border-b-2 rounded-none focus:ring-red-500 focus:border-b-red-500"
    else
      baseClasses ++ " bg-white border-red-300 text-gray-900 focus:ring-red-500 focus:border-red-500"
  else
    if variant =? "filled" then
      baseClasses ++ " bg-gray-100 border-gray-200 text-gray-900 focus:ring-blue-500 focus:border-blue-500 hover:bg-gray-50"
    else if variant =? "ghost" then
      baseClasses ++ " bg-transparent border-transparent border-b-gray-300 border-b-2 rounded-none focus:ring-blue-500 focus:border-b-blue-500 hover:border-b-gray-400"
    else
      baseClasses ++ " bg-white border-gray-300 text-gray-900 focus:ring-blue-500 focus:border-blue-500 hover:border-gray-400".

(** The class combinations [getVariantClasses] can return: the disabled one,
    then error and plain for each of filled, ghost and outlined. *)
Definition variantStyles : list string :=
  [ baseClasses ++ " opacity-50 cursor-not-allowed bg-gray-100 border-gray-200 text-gray-400";
    baseClasses ++ " bg-red-50 border-red-200 text-red-900 focus:ring-red-500 focus:border-red-500";
    baseClasses ++ " bg-transparent border-transparent border-b-red-500 border-b-2 rounded-none focus:ring-red-500 focus:border-b-red-500";
    baseClasses ++ " bg-white border-red-300 text-gray-900 focus:ring-red-500 focus:border-red-500";
    baseClasses ++ " bg-gray-100 border-gray-200 text-gray-900 focus:ring-blue-500 focus:border-blue-500 hover:bg-gray-50";
    baseClasses ++ " bg-transparent border-transparent border-b-gray-300 border-b-2 rounded-none focus:ring-blue-500 focus:border-b-blue-500 hover:border-b-gray-400";
    baseClasses ++ " bg-white border-gray-300 text-gray-900 focus:ring-blue-500 focus:border-blue-500 hover:border-gray-400" ].

(** Line 96. *)
Definition themeClasses : string :=
  match theme with dark => "dark" | light => "" end.

(** Lines 98-107. *)
Definition handleClear : Handler OnChange OnClear :=
  match onClear with
  | Some f => [invoke (call_onClear f)]
  | None =>
      match onChange with
      | Some g => [invoke (call_onChange g {| target_value := "" |})]
      | None => []
      end
  end.

Definition buttonClasses : string :=
  "text-gray-400 hover:text-gray-600 dark:text-gray-500 dark:hover:text-gray-300 transition-colors".

(** Lines 109-201. *)
Definition InputField : Rendered OnChange OnClear :=
  {| root_className := themeClasses ++ " w-full max-w-md " ++ className;
     label_el :=
       match label with
       | Some l =>
           JS.and_then (JS.truthy label)
             {| label_htmlFor := inputId;
                label_className :=
                  "block text-sm font-medium mb-2 "
                  ++ (if hasError then "text-red-700 dark:text-red-400"
                      else "text-gray-700 dark:text-gray-300")
                  ++ " " ++ (if disabled then "opacity-50" else "");
                label_child := l |}
       | None => None
       end;
     input_el :=
       {| input_id := inputId;
          input_type := inputType;
          input_value := value;
          input_onChange := onChange;
          input_placeholder := placeholder;
          input_disabled := disabled;
          aria_invalid := hasError;
          aria_describedby :=
            if hasError then Some errorId
            else if JS.truthy helperText then Some helperTextId
            else None;
          input_className :=
            getVariantClasses ++ " " ++ sizeClasses size ++ " "
            ++ (if (showClearButton && hasValue) || isPassword || loading
                then "pr-12" else "")
            ++ " dark:bg-gray-800 dark:border-gray-600 dark:text-white dark:placeholder-gray-400";
          input_onFocus := [setIsFocused true];
          input_onBlur := [setIsFocused false] |};
     spinner_el :=
       JS.and_then loading
         {| icon := Loader2;
            icon_className :=
              iconSizeClasses size ++ " text-gray-400 animate-spin" |};
     clear_button :=
       JS.and_then (showClearButton && hasValue && negb loading && negb disabled)
         {| button_onClick := handleClear;
            button_className := buttonClasses;
            button_aria_label := "Clear input";
            button_child :=
              {| icon := X; icon_className := iconSizeClasses size |} |};
     password_toggle :=
       JS.and_then (isPassword && negb loading)
         {| button_onClick := [setShowPassword (negb (showPassword st))];
            button_className := buttonClasses;
            button_aria_label :=
              if showPassword st then "Hide password" else "Show password";
            button_child :=
              {| icon := if showPassword st then EyeOff else Eye;
                 icon_className := iconSizeClasses size |} |};
     footer_el :=
       JS.and_then (JS.truthy helperText || JS.truthy errorMessage)
         {| footer_id := if hasError then errorId else helperTextId;
            footer_className :=
              "mt-2 text-sm "
              ++ (if hasError then "text-red-600 dark:text-red-400"
                  else "text-gray-500 dark:text-gray-400")
              ++ " " ++ (if disabled then "opacity-50" else "");
            footer_child := if hasError then errorMessage else helperText |}
  |}.

End InputField.

(** ** User events *)

Inductive UserEvent :=
| ClickClear
| ClickToggle
| Focus
| Blur
| Typing (newText : string).

Section Dispatch.
Context {OnChange OnClear : Type}.
Variable props : InputFieldProps OnChange OnClear.

(** The handler the rendered tree holds for a user event; [None] when the
    element the event needs is not in the tree (or, for the native input
    events, when the input is disabled). *)
Definition handlerOf (st : State) (ev : UserEvent)
  : option (Handler OnChange OnClear) :=
  let r := InputField props st in
  match ev with
  | ClickClear => option_map button_onClick (clear_button r)
  | ClickToggle => option_map button_onClick (password_toggle r)
  | Focus =>
      if input_disabled (input_el r) then None
      else Some (input_onFocus (input_el r))
  | Blur =>
      if input_disabled (input_el r) then None
      else Some (input_onBlur (input_el r))
  | Typing s =>
      if input_disabled (input_el r) then None
      else Some match input_onChange (input_el r) with
                | Some g => [invoke (call_onChange g {| target_value := s |})]
                | None => []
                end
  end.

(** One user event: the next state and the callbacks that were invoked. *)
Definition dispatch (st : State) (ev : UserEvent)
  : option (State * list (Call OnChange OnClear)) :=
  option_map (fun h => run h st) (handlerOf st ev).

End Dispatch.

(** ** The demonstration harness (lines 205-420)

    The harness passes two families of closures to the controls it owns;
    each closure is named here by the field it closes over. *)

Module InputDemo.

Inductive ChangeHandler := handleChange (field : string).
Inductive ClearHandler := handleClear (field : string).

(** The [values] object, as the list of its own properties. *)
Definition Values := list (string * string).

Definition initialValues : Values :=
  [ ("basic", ""); ("email", ""); ("password", "");
    ("disabled", "Disabled input"); ("error", "Invalid value");
    ("loading", "Loading...") ].

(** [values[field]]. *)
Fixpoint get (values : Values) (field : string) : option string :=
  match values with
  | [] => None
  | (k, v) :: rest => if k =? field then Some v else get rest field
  end.

(** [{ ...prev, [field]: v }]: an existing key keeps its place, a new key is
    appended. *)
Fixpoint set (prev : Values) (field v : string) : Values :=
  match prev with
  | [] => [(field, v)]
  | (k, w) :: rest =>
      if k =? field then (k, v) :: rest else (k, w) :: set rest field v
  end.

(** What the harness does when a control invokes one of its closures. *)
Definition invoked (c : Call ChangeHandler ClearHandler) (prev : Values)
  : Values :=
  match c with
  | call_onChange (handleChange field) e => set prev field (target_value e)
  | call_onClear (handleClear field) => set prev field ""
  end.

Definition DemoProps := InputFieldProps ChangeHandler ClearHandler.

(** Line 253. *)
Definition outlinedField (values : Values) (th : Theme) : DemoProps :=
  {| Props.value := get values "basic";
     Props.onChange := Some (handleChange "basic");
     Props.label := Some "Outlined (Default)";
     Props.placeholder := Some "Enter text...";
     Props.helperText := Some "This is helper text";
     Props.errorMessage := None;
     Props.disabled := None;
     Props.invalid := None;
     Props.loading := None;
     Props.variant := None;
     Props.size := None;
     Props.type := None;
     Props.showClearButton := Some true;
     Props.theme := Some th;
     Props.onClear := Some (handleClear "basic");
     Props.className := None |}.

(** Line 273. *)
Definition ghostField (values : Values) (th : Theme) : DemoProps :=
  {| Props.value := get values "basic";
     Props.onChange := Some (handleChange "basic");
     Props.label := Some "Ghost Variant";
     Props.placeholder := Some "Enter text...";
     Props.helperText := None;
     Props.errorMessage := None;
     Props.disabled := None;
     Props.invalid := None;
     Props.loading := None;
     Props.variant := Some "ghost";
     Props.size := None;
     Props.type := None;
     Props.showClearButton := None;
     Props.theme := Some th;
     Props.onClear := None;
     Props.className := None |}.

(** Line 332. *)
Definition passwordField (values : Values) (th : Theme) : DemoProps :=
  {| Props.value := get values "password";
     Props.onChange := Some (handleChange "password");
     Props.label := Some "Password";
     Props.placeholder := Some "Enter password...";
     Props.helperText := None;
     Props.errorMessage := None;
     Props.disabled := None;
     Props.invalid := None;
     Props.loading := None;
     Props.variant := None;
     Props.size := None;
     Props.type := Some password;
     Props.showClearButton := None;
     Props.theme := Some th;
     Props.onClear := None;
     Props.className := None |}.

(** Line 341. *)
Definition disabledField (values : Values) (th : Theme) : DemoProps :=
  {| Props.value := get values "disabled";
     Props.onChange := None;
     Props.label := Some "Disabled";
     Props.placeholder := Some "Disabled input";
     Props.helperText := None;
     Props.errorMessage := None;
     Props.disabled := Some true;
     Props.invalid := None;
     Props.loading := None;
     Props.variant := None;
     Props.size := None;
     Props.type := None;
     Props.showClearButton := None;
     Props.theme := Some th;
     Props.onClear := None;
     Props.className := None |}.

(** Line 349. *)
Definition errorField (values : Values) (th : Theme) : DemoProps :=
  {| Props.value := get values "error";
     Props.onChange := Some (handleChange "error");
     Props.label := Some "Error State";
     Props.placeholder := Some "Invalid input";
     Props.helperText := None;
     Props.errorMessage := Some "This field is required";
     Props.disabled := None;
     Props.invalid := Some true;
     Props.loading := None;
     Props.variant := None;
     Props.size := None;
     Props.type := None;
     Props.showClearButton := None;
     Props.theme := Some th;
     Props.onClear := None;
     Props.className := None |}.

(** Line 359. *)
Definition loadingField (values : Values) (th : Theme) : DemoProps :=
  {| Props.value := get values "loading";
     Props.onChange := Some (handleChange "loading");
     Props.label := Some "Loading";
     Props.placeholder := Some "Loading...";
     Props.helperText := Some "Processing your request...";
     Props.errorMessage := None;
     Props.disabled := None;
     Props.invalid := None;
     Props.loading := Some true;
     Props.variant := None;
     Props.size := None;
     Props.type := None;
     Props.showClearButton := None;
     Props.theme := Some th;
     Props.onClear := None;
     Props.className := None |}.

(** Line 264. *)
Definition filledField (values : Values) (th : Theme) : DemoProps :=
  {| Props.value := get values "basic";
     Props.onChange := Some (handleChange "basic");
     Props.label := Some "Filled Variant";
     Props.placeholder := Some "Enter text...";
     Props.helperText := None;
     Props.errorMessage := None;
     Props.disabled := None;
     Props.invalid := None;
     Props.loading := None;
     Props.variant := Some "filled";
     Props.size := None;
     Props.type := None;
     Props.showClearButton := None;
     Props.theme := Some th;
     Props.onClear := None;
     Props.className := None |}.

(** Lines 291, 298 and 305: the size gallery, which binds neither a value
    nor a callback. *)
Definition sizedField (lbl ph : string) (sz : Size) (th : Theme) : DemoProps :=
  {| Props.value := None;
     Props.onChange := None;
     Props.label := Some lbl;
     Props.placeholder := Some ph;
     Props.helperText := None;
     Props.errorMessage := None;
     Props.disabled := None;
     Props.invalid := None;
     Props.loading := None;
     Props.variant := None;
     Props.size := Some sz;
     Props.type := None;
     Props.showClearButton := None;
     Props.theme := Some th;
     Props.onClear := None;
     Props.className := None |}.

(** Line 321. *)
Definition emailField (values : Values) (th : Theme) : DemoProps :=
  {| Props.value := get values "email";
     Props.onChange := Some (handleChange "email");
     Props.label := Some "Email";
     Props.placeholder := Some "Enter email...";
     Props.helperText := None;
     Props.errorMessage := None;
     Props.disabled := None;
     Props.invalid := None;
     Props.loading := None;
     Props.variant := None;
     Props.size := None;
     Props.type := Some email;
     Props.showClearButton := Some true;
     Props.theme := Some th;
     Props.onClear := Some (handleClear "email");
     Props.className := None |}.

(** The eleven controls the harness renders, in document order. *)
Inductive Slot :=
| Outlined | Filled | Ghost
| Small | Medium | Large
| Email | Password | Disabled | Error | Loading.

Definition Slot_eqb (a b : Slot) : bool :=
  match a, b with
  | Outlined, Outlined | Filled, Filled | Ghost, Ghost
  | Small, Small | Medium, Medium | Large, Large
  | Email, Email | Password, Password | Disabled, Disabled
  | Error, Error | Loading, Loading => true
  | _, _ => false
  end.

(** The props each control receives in one render of the harness
    (lines 253-367). *)
Definition controlProps (s : Slot) (values : Values) (th : Theme)
  : DemoProps :=
  match s with
  | Outlined => outlinedField values th
  | Filled => filledField values th
  | Ghost => ghostField values th
  | Small => sizedField "Small" "Small input" sm th
  | Medium => sizedField "Medium (Default)" "Medium input" md th
  | Large => sizedField "Large" "Large input" lg th
  | Email => emailField values th
  | Password => passwordField values th
  | Disabled => disabledField values th
  | Error => errorField values th
  | Loading => loadingField values th
  end.

(** The harness's two [useState] cells (lines 206-215) together with the
    hook cells of the controls it owns. *)
Record DemoState := {
  values : Values;
  theme : Theme;
  hooks : Slot -> State
}.

Definition initialDemo : DemoState :=
  {| values := initialValues;
     theme := light;
     hooks := fun _ => initialState |}.

(** Line 237: [theme === 'light' ? 'dark' : 'light']. *)
Definition toggledTheme (th : Theme) : Theme :=
  match th with
  | light => dark
  | dark => light
  end.

Inductive DemoEvent :=
| ClickThemeButton
| At (s : Slot) (ev : UserEvent).

(** One user event on the page.  The functional updates queued by the
    closures a control invoked are applied in order. *)
Definition demoStep (d : DemoState) (ev : DemoEvent) : option DemoState :=
  match ev with
  | ClickThemeButton =>
      Some {| values := values d;
              theme := toggledTheme (theme d);
              hooks := hooks d |}
  | At s e =>
      match dispatch (controlProps s (values d) (theme d)) (hooks d s) e with
      | Some (st', cs) =>
          Some {| values := fold_left (fun v c => invoked c v) cs (values d);
                  theme := theme d;
                  hooks := fun s' => if Slot_eqb s' s then st' else hooks d s' |}
      | None => None
      end
  end.

(** States the page can be in. *)
Inductive Reachable : DemoState -> Prop :=
| reach_initial : Reachable initialDemo
| reach_step d ev d' :
    Reachable d -> demoStep d ev = Some d' -> Reachable d'.

(** What a control of the page shows in a given state. *)
Definition rendered (d : DemoState) (s : Slot)
  : Rendered ChangeHandler ClearHandler :=
  InputField (controlProps s (values d) (theme d)) (hooks d s).

End InputDemo.

(** ** Configurations of the specification's examples *)

Module Examples.

Definition P := InputFieldProps InputDemo.ChangeHandler InputDemo.ClearHandler.

(** [{value:"abc", showClearButton:true, loading:false, disabled:false}],
    nothing else supplied. *)
Definition abc_clearable : P :=
  {| Props.value := Some "abc";
     Props.onChange := None;
     Props.label := None;
     Props.placeholder := None;
     Props.helperText := None;
     Props.errorMessage := None;
     Props.disabled := Some false;
     Props.invalid := None;
     Props.loading := Some false;
     Props.variant := None;
     Props.size := None;
     Props.type := None;
     Props.showClearButton := Some true;
     Props.theme := None;
     Props.onClear := None;
     Props.className := None |}.

(** The same with a change callback. *)
Definition abc_clearable_controlled : P :=
  {| Props.value := Some "abc";
     Props.onChange := Some (InputDemo.handleChange "basic");
     Props.label := None;
     Props.placeholder := None;
     Props.helperText := None;
     Props.errorMessage := None;
     Props.disabled := Some false;
     Props.invalid := None;
     Props.loading := Some false;
     Props.variant := None;
     Props.size := None;
     Props.type := None;
     Props.showClearButton := Some true;
     Props.theme := None;
     Props.onClear := None;
     Props.className := None |}.

(** [{variant:"ghost", disabled:true}]. *)
Definition ghost_disabled : P :=
  {| Props.value := None;
     Props.onChange := None;
     Props.label := None;
     Props.placeholder := None;
     Props.helperText := None;
     Props.errorMessage := None;
     Props.disabled := Some true;
     Props.invalid := None;
     Props.loading := None;
     Props.variant := Some "ghost";
     Props.size := None;
     Props.type := None;
     Props.showClearButton := None;
     Props.theme := None;
     Props.onClear := None;
     Props.className := None |}.

(** [{kind:"password", value:"secret"}]. *)
Definition secret_password : P :=
  {| Props.value := Some "secret";
     Props.onChange := None;
     Props.label := None;
     Props.placeholder := None;
     Props.helperText := None;
     Props.errorMessage := None;
     Props.disabled := None;
     Props.invalid := None;
     Props.loading := None;
     Props.variant := None;
     Props.size := None;
     Props.type := Some password;
     Props.showClearButton := None;
     Props.theme := None;
     Props.onClear := None;
     Props.className := None |}.

(** [<InputField invalid />]: the flag alone, no message of either kind. *)
Definition invalid_only : P :=
  {| Props.value := None;
     Props.onChange := None;
     Props.label := None;
     Props.placeholder := None;
     Props.helperText := None;
     Props.errorMessage := None;
     Props.disabled := None;
     Props.invalid := Some true;
     Props.loading := None;
     Props.variant := None;
     Props.size := None;
     Props.type := None;
     Props.showClearButton := None;
     Props.theme := None;
     Props.onClear := None;
     Props.className := None |}.

(** [<InputField invalid helperText="hint" />]. *)
Definition invalid_with_hint : P :=
  {| Props.value := None;
     Props.onChange := None;
     Props.label := None;
     Props.placeholder := None;
     Props.helperText := Some "hint";
     Props.errorMessage := None;
     Props.disabled := None;
     Props.invalid := Some true;
     Props.loading := None;
     Props.variant := None;
     Props.size := None;
     Props.type := None;
     Props.showClearButton := None;
     Props.theme := None;
     Props.onClear := None;
     Props.className := None |}.

End Examples.

(** ** Class lists *)

Module DOM.

(** The token that was being read, if any. *)
Definition flush (acc : string) : list string :=
  match acc with
  | EmptyString => []
  | _ => [acc]
  end.

(** ASCII whitespace, the separators of a token list: tab, line feed, form
    feed, carriage return and space. *)
Definition is_space (c : ascii) : bool :=
  match nat_of_ascii c with
  | 9 | 10 | 12 | 13 | 32 => true
  | _ => false
  end.

Fixpoint tokens_from (acc s : string) : list string :=
  match s with
  | EmptyString => flush acc
  | String c s' =>
      if is_space c then flush acc ++ tokens_from "" s'
      else tokens_from (acc ++ String c "") s'
  end.

(** [element.classList] for a [className] string: its tokens, split at
    whitespace, empty ones dropped. *)
Definition classList (className : string) : list string :=
  tokens_from "" className.

Definition hasClass (c className : string) : bool :=
  existsb (String.eqb c) (classList className).

End DOM.

(** * Properties *)

(** ** Truthiness *)

Lemma truthy_true_iff (o : option string) :
  JS.truthy o = true <-> exists s, o = Some s /\ s <> "".
Proof.
  destruct o as [s|]; simpl.
  - rewrite negb_true_iff, String.eqb_neq. split.
    + intros H. exists s. split; [reflexivity | exact H].
    + intros (s' & E & H). injection E as ->. exact H.
  - split; [discriminate | intros (s & E & _); discriminate].
Qed.

Lemma truthy_false_child_text (o : option string) :
  JS.truthy o = false -> JS.child_text o = "".
Proof.
  destruct o as [s|]; simpl; [|reflexivity].
  rewrite negb_false_iff, String.eqb_eq. exact (fun H => H).
Qed.

Lemma and_then_Some {A : Type} (c : bool) (e x : A) :
  JS.and_then c e = Some x <-> c = true /\ x = e.
Proof.
  destruct c; simpl; split.
  - intros H. injection H as <-. split; reflexivity.
  - intros [_ ->]. reflexivity.
  - discriminate.
  - intros [H _]. discriminate.
Qed.

Section Facts.
Context {OnChange OnClear : Type}.
Implicit Types (props : InputFieldProps OnChange OnClear) (st : State).

Lemma hasValue_true_iff props : hasValue props = true <-> value props <> "".
Proof.
  unfold hasValue. rewrite andb_true_iff, negb_true_iff, String.eqb_neq.
  split; [tauto|]. intros H. split; [exact H|].
  destruct (value props); [contradiction | reflexivity].
Qed.

Lemma hasError_true_iff props :
  hasError props = true <->
  invalid props = true \/ JS.truthy (errorMessage props) = true.
Proof. unfold hasError. apply orb_true_iff. Qed.

(** The footer region, by cases on the guard of line 188. *)
Lemma footer_el_cases props st :
  (JS.truthy (helperText props) || JS.truthy (errorMessage props) = false /\
   footer_el (InputField props st) = None) \/
  (JS.truthy (helperText props) || JS.truthy (errorMessage props) = true /\
   exists f, footer_el (InputField props st) = Some f /\
     footer_id f = (if hasError props then errorId else helperTextId) /\
     footer_child f =
       (if hasError props then errorMessage props else helperText props)).
Proof.
  unfold InputField; simpl.
  destruct (JS.truthy (helperText props) || JS.truthy (errorMessage props));
    simpl.
  - right. split; [reflexivity|]. eexists. split; [reflexivity|].
    split; reflexivity.
  - left. split; reflexivity.
Qed.

(** *** C1 *)

(** C1.  Whenever [invalid] is true or [errorMessage] is non-empty the input
    carries [aria-invalid], the text shown by the footer message region is
    the error message, the region (when it is in the tree) is the element
    identified by [errorId] whose child is [errorMessage], it is in the tree
    as soon as the message is non-empty, and a helper text that differs from
    the error message is never what the region shows. *)
Theorem error_display_takes_precedence props st :
  invalid props = true \/ JS.truthy (errorMessage props) = true ->
  aria_invalid (input_el (InputField props st)) = true /\
  footer_text (InputField props st) = JS.child_text (errorMessage props) /\
  (forall f, footer_el (InputField props st) = Some f ->
     footer_id f = errorId /\ footer_child f = errorMessage props) /\
  (JS.truthy (errorMessage props) = true ->
     exists f, footer_el (InputField props st) = Some f) /\
  (forall h, helperText props = Some h ->
     h <> JS.child_text (errorMessage props) ->
     footer_text (InputField props st) <> h).
Proof.
  intros Herr. apply hasError_true_iff in Herr.
  assert (Htext : footer_text (InputField props st)
                  = JS.child_text (errorMessage props)).
  { unfold footer_text.
    destruct (footer_el_cases props st) as [[G ->] | [_ (f & -> & _ & C)]].
    - apply orb_false_iff in G. destruct G as [_ G].
      symmetry. apply truthy_false_child_text. exact G.
    - rewrite C, Herr. reflexivity. }
  split; [exact Herr|]. split; [exact Htext|]. split; [|split].
  - intros f Hf.
    destruct (footer_el_cases props st) as [[_ E] | [_ (f' & E & I & C)]];
      rewrite E in Hf; [discriminate|].
    injection Hf as <-. rewrite I, C, Herr. split; reflexivity.
  - intros Hmsg.
    destruct (footer_el_cases props st) as [[G _] | [_ (f & E & _)]].
    + rewrite Hmsg, orb_true_r in G. discriminate.
    + exists f. exact E.
  - intros h _ Hne. rewrite Htext. congruence.
Qed.

(** *** C7 *)

(** C7.  When the error condition is false and [helperText] is non-empty,
    the footer region is in the tree, it is the element identified by
    [helperTextId], its child is [helperText] and the text it shows is
    exactly [helperText]. *)
Theorem helper_text_shown_without_error props st (h : string) :
  hasError props = false ->
  helperText props = Some h ->
  h <> "" ->
  footer_text (InputField props st) = h /\
  exists f, footer_el (InputField props st) = Some f /\
            footer_id f = helperTextId /\ footer_child f = Some h.
Proof.
  intros Herr Hh Hne.
  assert (T : JS.truthy (helperText props) = true).
  { apply truthy_true_iff. exists h. split; assumption. }
  destruct (footer_el_cases props st) as [[G _] | [_ (f & E & I & C)]].
  - rewrite T in G. discriminate.
  - rewrite Herr in I, C. rewrite Hh in C. split.
    + unfold footer_text. rewrite E, C. reflexivity.
    + exists f. repeat split; assumption.
Qed.

(** *** C2 *)

(** C2.  The clear button is in the rendered tree if and only if
    [showClearButton] is true, the current text is non-empty, [loading] is
    false and [disabled] is false; when it is there its click handler is
    [handleClear]. *)
Theorem clear_button_rendered_iff props st :
  ((exists b, clear_button (InputField props st) = Some b) <->
   (showClearButton props = true /\ value props <> "" /\
    loading props = false /\ disabled props = false)) /\
  (forall b, clear_button (InputField props st) = Some b ->
     button_onClick b = handleClear props /\
     button_aria_label b = "Clear input").
Proof.
  unfold InputField; simpl. split.
  - rewrite <- hasValue_true_iff. split.
    + intros (b & Hb). apply and_then_Some in Hb. destruct Hb as [Hc _].
      repeat rewrite andb_true_iff in Hc. rewrite !negb_true_iff in Hc. tauto.
    + intros (H1 & H2 & H3 & H4). rewrite H1, H2, H3, H4. simpl.
      eexists. reflexivity.
  - intros b Hb. apply and_then_Some in Hb. destruct Hb as [_ ->].
    split; reflexivity.
Qed.

(** ** Dispatching clicks *)

Lemma dispatch_ClickClear props st :
  dispatch props st ClickClear =
  if showClearButton props && hasValue props
     && negb (loading props) && negb (disabled props)
  then Some (run (handleClear props) st) else None.
Proof.
  unfold dispatch, handlerOf, InputField; simpl.
  destruct (showClearButton props && hasValue props
            && negb (loading props) && negb (disabled props)); reflexivity.
Qed.

Lemma dispatch_ClickToggle props st :
  dispatch props st ClickToggle =
  if isPassword props && negb (loading props)
  then Some ({| showPassword := negb (showPassword st);
                isFocused := isFocused st |}, [])
  else None.
Proof.
  unfold dispatch, handlerOf, InputField; simpl.
  destruct (isPassword props && negb (loading props)); reflexivity.
Qed.

Lemma isPassword_true_iff props :
  isPassword props = true <-> type props = password.
Proof.
  unfold isPassword. destruct (type props); split; congruence.
Qed.

(** *** C3 *)

(** C3.  For a password field the reveal toggle is absent while [loading];
    otherwise two successive clicks on it succeed, neither invokes a callback
    of the caller, the first flips the rendered type, the second restores it
    (and the whole state), a field that starts concealed is rendered
    [password] and then [text], and the rendered [value] is the caller's in
    all three renders. *)
Theorem password_reveal_round_trip props st :
  type props = password ->
  (loading props = true -> dispatch props st ClickToggle = None) /\
  (loading props = false ->
   exists st1 st2,
     dispatch props st ClickToggle = Some (st1, []) /\
     dispatch props st1 ClickToggle = Some (st2, []) /\
     st2 = st /\
     input_type (input_el (InputField props st1))
       <> input_type (input_el (InputField props st)) /\
     input_type (input_el (InputField props st2))
       = input_type (input_el (InputField props st)) /\
     (showPassword st = false ->
        input_type (input_el (InputField props st)) = password /\
        input_type (input_el (InputField props st1)) = text) /\
     input_value (input_el (InputField props st)) = value props /\
     input_value (input_el (InputField props st1)) = value props /\
     input_value (input_el (InputField props st2)) = value props).
Proof.
  intros Hty. pose proof (proj2 (isPassword_true_iff props) Hty) as Hpw.
  split; intros Hl.
  - rewrite dispatch_ClickToggle, Hpw, Hl. reflexivity.
  - exists {| showPassword := negb (showPassword st);
              isFocused := isFocused st |}, st.
    rewrite !dispatch_ClickToggle, Hpw, Hl. simpl.
    unfold inputType. rewrite Hpw. simpl.
    destruct st as [sp fo]; destruct sp; simpl;
      repeat split; try reflexivity; try discriminate.
Qed.

(** *** C5 *)

(** C5, as amended.  The rendered type is [password] exactly when the
    declared kind is [password] and the reveal flag is false; a password
    field whose reveal flag is true is rendered [text]; a field of any other
    kind is rendered with its declared kind. *)
Theorem effective_type_invariant props st :
  (input_type (input_el (InputField props st)) = password <->
   type props = password /\ showPassword st = false) /\
  (type props = password -> showPassword st = true ->
   input_type (input_el (InputField props st)) = text) /\
  (type props <> password ->
   input_type (input_el (InputField props st)) = type props).
Proof.
  unfold InputField; simpl. unfold inputType, isPassword.
  destruct (type props), (showPassword st); simpl;
    repeat split; intros; try tauto; try congruence;
    match goal with H : _ /\ _ |- _ => destruct H; congruence end.
Qed.

(** *** C6 *)

(** C6.  The style depends on the props through ([disabled], [hasError],
    [variant]) only; a variant that is neither [filled] nor [ghost] gets the
    style of [outlined]; a disabled control gets the disabled style whatever
    the variant and the error condition; and the style is always one of the
    seven fixed class combinations. *)
Theorem style_selection_total props props' :
  (disabled props = disabled props' -> hasError props = hasError props' ->
   variant props = variant props' ->
   getVariantClasses props = getVariantClasses props') /\
  (disabled props = disabled props' -> hasError props = hasError props' ->
   variant props <> "filled" -> variant props <> "ghost" ->
   variant props' = "outlined" ->
   getVariantClasses props = getVariantClasses props') /\
  (disabled props = true ->
   getVariantClasses props =
   baseClasses ++ " opacity-50 cursor-not-allowed bg-gray-100 border-gray-200 text-gray-400") /\
  In (getVariantClasses props) variantStyles.
Proof.
  unfold getVariantClasses. split; [|split; [|split]].
  - intros -> -> ->. reflexivity.
  - intros -> -> Hf Hg ->.
    apply String.eqb_neq in Hf. apply String.eqb_neq in Hg.
    rewrite Hf, Hg. reflexivity.
  - intros ->. reflexivity.
  - unfold variantStyles.
    destruct (disabled props), (hasError props),
      (variant props =? "filled"), (variant props =? "ghost");
      simpl; tauto.
Qed.

(** *** C9 *)

(** C9.  The tree rendered with the focus flag set is the tree rendered with
    the focus flag cleared, for every configuration and every reveal flag. *)
Theorem focus_flag_not_rendered props (reveal : bool) :
  InputField props {| showPassword := reveal; isFocused := true |}
  = InputField props {| showPassword := reveal; isFocused := false |}.
Proof. reflexivity. Qed.

(** Focus and blur write the focus flag and nothing else. *)
Lemma focus_blur_write_focus_only props st :
  disabled props = false ->
  dispatch props st Focus
    = Some ({| showPassword := showPassword st; isFocused := true |}, []) /\
  dispatch props st Blur
    = Some ({| showPassword := showPassword st; isFocused := false |}, []).
Proof.
  intros Hd. unfold dispatch, handlerOf, InputField; simpl.
  rewrite Hd. split; reflexivity.
Qed.

(** *** C4 and C10 *)

(** C4, as amended.  A click on the rendered clear button leaves the state
    alone and invokes exactly one callback when one is available: [onClear]
    when it is supplied (and then not [onChange]); otherwise [onChange],
    when that one is supplied, with a synthesized event whose
    [target.value] is the empty string. *)
Theorem clear_click_notifies props st :
  showClearButton props = true -> value props <> "" ->
  loading props = false -> disabled props = false ->
  (forall f, onClear props = Some f ->
     dispatch props st ClickClear = Some (st, [call_onClear f])) /\
  (forall g, onClear props = None -> onChange props = Some g ->
     dispatch props st ClickClear
     = Some (st, [call_onChange g {| target_value := "" |}])).
Proof.
  intros H1 H2 H3 H4. apply hasValue_true_iff in H2.
  rewrite dispatch_ClickClear, H1, H2, H3, H4. simpl.
  unfold run, handleClear. split.
  - intros f ->. reflexivity.
  - intros g -> ->. reflexivity.
Qed.

(** C10.  With neither [onClear] nor [onChange] supplied, [handleClear]
    performs no effect at all: a click on the clear button, which succeeds
    whenever the button is rendered, invokes no callback and leaves both
    hook cells as they were. *)
Theorem clear_click_without_callbacks_is_noop props st :
  onClear props = None -> onChange props = None ->
  handleClear props = [] /\
  run (handleClear props) st = (st, []) /\
  (dispatch props st ClickClear = None \/
   dispatch props st ClickClear = Some (st, [])) /\
  (showClearButton props = true -> value props <> "" ->
   loading props = false -> disabled props = false ->
   dispatch props st ClickClear = Some (st, [])).
Proof.
  intros Hc Hg.
  assert (Hh : handleClear props = []).
  { unfold handleClear. rewrite Hc, Hg. reflexivity. }
  rewrite dispatch_ClickClear, Hh. unfold run; simpl.
  split; [reflexivity|]. split; [reflexivity|]. split.
  - destruct (showClearButton props && hasValue props
              && negb (loading props) && negb (disabled props));
      [right | left]; reflexivity.
  - intros H1 H2 H3 H4. apply hasValue_true_iff in H2.
    rewrite H1, H2, H3, H4. reflexivity.
Qed.

(** *** The description association *)

(** Lines 135-141: the three-way choice of [aria-describedby]. *)
Lemma aria_describedby_cases props st :
  aria_describedby (input_el (InputField props st)) =
  if hasError props then Some errorId
  else if JS.truthy (helperText props) then Some helperTextId
  else None.
Proof. reflexivity. Qed.

(** The helper-text branch associates the input only with an element that is
    in the tree: the branch is guarded by [helperText], which also guards
    the footer. *)
Lemma helper_description_target_exists props st :
  aria_describedby (input_el (InputField props st)) = Some helperTextId ->
  exists f,
    getElementById (InputField props st) helperTextId = Some (FooterNode f) /\
    footer_child f = helperText props.
Proof.
  rewrite aria_describedby_cases. intros H.
  destruct (hasError props) eqn:He; [discriminate|].
  destruct (JS.truthy (helperText props)) eqn:Ht; [|discriminate].
  unfold getElementById. simpl. rewrite Ht, He. simpl.
  eexists. split; reflexivity.
Qed.

(** The error branch has a target as soon as one of the two texts is
    non-empty. *)
Lemma error_description_target_exists props st :
  hasError props = true ->
  JS.truthy (helperText props) || JS.truthy (errorMessage props) = true ->
  exists f,
    getElementById (InputField props st) errorId = Some (FooterNode f) /\
    footer_child f = errorMessage props.
Proof.
  intros He Hg. unfold getElementById. simpl. rewrite Hg, He. simpl.
  eexists. split; reflexivity.
Qed.

End Facts.

(** ** Concrete configurations *)

Lemma error_display_takes_precedence_witness :
  let p := InputDemo.errorField InputDemo.initialValues light in
  invalid p = true /\
  aria_invalid (input_el (InputField p initialState)) = true /\
  footer_text (InputField p initialState) = "This field is required".
Proof.
  split; [reflexivity|].
  destruct (error_display_takes_precedence
              (InputDemo.errorField InputDemo.initialValues light)
              initialState (or_introl eq_refl)) as (A & T & _).
  split; [exact A | exact T].
Defined.

Lemma helper_text_shown_without_error_witness :
  let p := InputDemo.loadingField InputDemo.initialValues dark in
  hasError p = false /\
  footer_text (InputField p initialState) = "Processing your request...".
Proof.
  split; [reflexivity|].
  apply (helper_text_shown_without_error
           (InputDemo.loadingField InputDemo.initialValues dark) initialState
           "Processing your request..." eq_refl eq_refl).
  discriminate.
Defined.

Lemma password_reveal_round_trip_witness :
  type Examples.secret_password = password /\
  loading Examples.secret_password = false /\
  exists st1 st2,
    dispatch Examples.secret_password initialState ClickToggle
      = Some (st1, []) /\
    dispatch Examples.secret_password st1 ClickToggle = Some (st2, []) /\
    st2 = initialState.
Proof.
  split; [reflexivity|]. split; [reflexivity|].
  destruct (password_reveal_round_trip Examples.secret_password initialState
              eq_refl) as [_ H].
  destruct (H eq_refl) as (st1 & st2 & D1 & D2 & E & _).
  exists st1, st2. repeat split; assumption.
Defined.

(** C3's example: concealed at first, [text] after one click, and the value
    stays ["secret"]. *)
Example secret_password_one_click :
  input_type (input_el (InputField Examples.secret_password initialState))
    = password /\
  (exists st1,
     dispatch Examples.secret_password initialState ClickToggle
       = Some (st1, []) /\
     input_type (input_el (InputField Examples.secret_password st1)) = text /\
     input_value (input_el (InputField Examples.secret_password st1))
       = "secret").
Proof.
  split; [reflexivity|]. eexists. repeat split.
Qed.

(** C5 as written fails: a revealed password field is outside the case
    "kind is password and the reveal flag is false", yet it is rendered
    [text], which is not its declared kind. *)
Lemma revealed_password_not_declared_kind :
  let st := {| showPassword := true; isFocused := false |} in
  ~ (type Examples.secret_password = password /\ showPassword st = false) /\
  type Examples.secret_password = password /\
  input_type (input_el (InputField Examples.secret_password st)) = text /\
  input_type (input_el (InputField Examples.secret_password st))
    <> type Examples.secret_password.
Proof.
  simpl. split; [intros [_ H]; discriminate|].
  split; [reflexivity|]. split; [reflexivity | discriminate].
Qed.

Lemma effective_type_invariant_witness :
  type (InputDemo.passwordField InputDemo.initialValues light) = password /\
  input_type
    (input_el (InputField (InputDemo.passwordField InputDemo.initialValues light)
                 {| showPassword := true; isFocused := false |})) = text /\
  input_type
    (input_el (InputField (InputDemo.errorField InputDemo.initialValues light)
                 initialState)) = text.
Proof.
  split; [reflexivity|]. split.
  - apply (proj1 (proj2 (effective_type_invariant
                           (InputDemo.passwordField InputDemo.initialValues light)
                           {| showPassword := true; isFocused := false |})));
      reflexivity.
  - apply (proj2 (proj2 (effective_type_invariant
                           (InputDemo.errorField InputDemo.initialValues light)
                           initialState))).
    discriminate.
Defined.

Lemma clear_button_rendered_iff_witness :
  exists b,
    clear_button (InputField Examples.abc_clearable initialState) = Some b /\
    button_onClick b = handleClear Examples.abc_clearable.
Proof.
  destruct (clear_button_rendered_iff Examples.abc_clearable initialState)
    as [[_ R] H].
  destruct R as (b & Hb).
  - repeat split; discriminate.
  - exists b. split; [exact Hb | exact (proj1 (H b Hb))].
Defined.

Lemma style_selection_total_witness :
  disabled Examples.ghost_disabled = true /\
  getVariantClasses Examples.ghost_disabled
  = getVariantClasses (InputDemo.disabledField InputDemo.initialValues light) /\
  getVariantClasses
    (InputDemo.errorField InputDemo.initialValues light
     : Examples.P)
  = "w-full rounded-lg border transition-all duration-200 focus:outline-none focus:ring-2 bg-white border-red-300 text-gray-900 focus:ring-red-500 focus:border-red-500".
Proof.
  split; [reflexivity|]. split.
  - destruct (style_selection_total Examples.ghost_disabled
                (InputDemo.disabledField InputDemo.initialValues light))
      as (_ & _ & D & _).
    rewrite (D eq_refl). reflexivity.
  - destruct (style_selection_total
                (InputDemo.errorField InputDemo.initialValues light)
                (InputDemo.errorField InputDemo.initialValues dark))
      as (S & _).
    rewrite (S eq_refl eq_refl eq_refl). reflexivity.
Defined.

(** The fallback at a variant outside the declared union. *)
Example unrecognized_variant_is_outlined :
  getVariantClasses
    ({| Props.value := None; Props.onChange := None; Props.label := None;
        Props.placeholder := None; Props.helperText := None;
        Props.errorMessage := None; Props.disabled := None;
        Props.invalid := None; Props.loading := None;
        Props.variant := Some "underlined"; Props.size := None;
        Props.type := None; Props.showClearButton := None;
        Props.theme := None; Props.onClear := None;
        Props.className := None |} : Examples.P)
  = getVariantClasses (Props.empty : Examples.P).
Proof. reflexivity. Qed.

(** C4 as written fails at the specification's own example: with [onClear]
    and [onChange] both absent the click on the clear button succeeds and
    no change notification is produced. *)
Lemma clear_click_without_onChange_is_silent :
  onClear Examples.abc_clearable = None /\
  (exists b,
     clear_button (InputField Examples.abc_clearable initialState) = Some b) /\
  dispatch Examples.abc_clearable initialState ClickClear
    = Some (initialState, []) /\
  ~ (exists st' cs g,
       dispatch Examples.abc_clearable initialState ClickClear
         = Some (st', cs) /\
       In (call_onChange g {| target_value := "" |}) cs).
Proof.
  split; [reflexivity|]. split; [eexists; reflexivity|].
  split; [reflexivity|].
  intros (st' & cs & g & D & I).
  change (Some (initialState, @nil (Call InputDemo.ChangeHandler
                                         InputDemo.ClearHandler))
          = Some (st', cs)) in D.
  injection D as _ <-. destruct I.
Qed.

Lemma clear_click_notifies_witness :
  dispatch Examples.abc_clearable_controlled initialState ClickClear
    = Some (initialState,
            [call_onChange (InputDemo.handleChange "basic")
               {| target_value := "" |}]) /\
  dispatch (InputDemo.outlinedField [("basic", "abc")] light) initialState
    ClickClear
    = Some (initialState, [call_onClear (InputDemo.handleClear "basic")]).
Proof.
  split.
  - apply (clear_click_notifies Examples.abc_clearable_controlled initialState);
      try reflexivity; discriminate.
  - apply (clear_click_notifies
             (InputDemo.outlinedField [("basic", "abc")] light) initialState);
      try reflexivity; discriminate.
Defined.

Lemma clear_click_without_callbacks_is_noop_witness :
  onClear Examples.abc_clearable = None /\
  onChange Examples.abc_clearable = None /\
  dispatch Examples.abc_clearable initialState ClickClear
    = Some (initialState, []).
Proof.
  split; [reflexivity|]. split; [reflexivity|].
  apply (clear_click_without_callbacks_is_noop Examples.abc_clearable
           initialState eq_refl eq_refl);
    try reflexivity; discriminate.
Defined.

(** C8 at [<InputField invalid />].  The error condition holds and the input
    is described by [errorId], but the footer is not rendered and no element
    of the tree carries that identifier. *)
Theorem invalid_only_description_dangles :
  hasError Examples.invalid_only = true /\
  aria_invalid (input_el (InputField Examples.invalid_only initialState))
    = true /\
  aria_describedby (input_el (InputField Examples.invalid_only initialState))
    = Some errorId /\
  footer_el (InputField Examples.invalid_only initialState) = None /\
  getElementById (InputField Examples.invalid_only initialState) errorId
    = None.
Proof. repeat split. Qed.

(** The harness's own clear closure empties the field it names. *)
Example demo_clear_resets_basic :
  match dispatch (InputDemo.outlinedField [("basic", "abc")] light)
          initialState ClickClear with
  | Some (_, cs) =>
      fold_left (fun v c => InputDemo.invoked c v) cs [("basic", "abc")]
  | None => []
  end = [("basic", "")].
Proof. reflexivity. Qed.

(** * Further properties of the control *)

(** ** Class lists *)

Lemma tokens_from_app_space (a b acc : string) :
  DOM.tokens_from acc (a ++ String " " b)
  = (DOM.tokens_from acc a ++ DOM.classList b)%list.
Proof.
  revert acc. induction a as [|c a IH]; intros acc; simpl.
  - reflexivity.
  - destruct (DOM.is_space c).
    + rewrite IH, app_assoc. reflexivity.
    + apply IH.
Qed.

Lemma classList_app_space (a b : string) :
  DOM.classList (a ++ " " ++ b) = (DOM.classList a ++ DOM.classList b)%list.
Proof. apply tokens_from_app_space. Qed.

Lemma hasClass_app_space (c a b : string) :
  DOM.hasClass c (a ++ " " ++ b) = DOM.hasClass c a || DOM.hasClass c b.
Proof.
  unfold DOM.hasClass. rewrite classList_app_space. apply existsb_app.
Qed.

(** The same when the blank is the first character of a literal. *)
Lemma hasClass_app_String_space (c a b : string) :
  DOM.hasClass c (a ++ String " " b) = DOM.hasClass c a || DOM.hasClass c b.
Proof. exact (hasClass_app_space c a b). Qed.

Section MoreFacts.
Context {OnChange OnClear : Type}.
Implicit Types (props : InputFieldProps OnChange OnClear) (st : State).

Lemma getVariantClasses_no_padding props :
  DOM.hasClass "pr-12" (getVariantClasses props) = false.
Proof.
  unfold getVariantClasses.
  destruct (disabled props), (hasError props),
    (variant props =? "filled"), (variant props =? "ghost"); reflexivity.
Qed.

(** ** Label and identifiers *)

(** X1.  The label is rendered exactly when [label] is non-empty; it then
    targets the input's identifier and shows the label text. The input is what
    its identifier resolves to, and the footer never carries that identifier. *)
Theorem label_bound_to_input props st :
  ((exists l, label_el (InputField props st) = Some l) <->
   JS.truthy (label props) = true) /\
  (forall l, label_el (InputField props st) = Some l ->
     label_htmlFor l = input_id (input_el (InputField props st)) /\
     label props = Some (label_child l)) /\
  getElementById (InputField props st)
    (input_id (input_el (InputField props st)))
  = Some (InputNode (input_el (InputField props st))) /\
  (forall f, footer_el (InputField props st) = Some f ->
     footer_id f <> input_id (input_el (InputField props st))).
Proof.
  unfold InputField; simpl. split; [|split; [|split]].
  - destruct (label props) as [l|]; simpl.
    + destruct (negb (l =? "")); simpl; split;
        try discriminate; try (intros [? ?]; discriminate).
      * reflexivity.
      * intros _. eexists. reflexivity.
    + split; [intros [? ?]|]; discriminate.
  - intros l. destruct (label props) as [l'|]; [|discriminate].
    intros H. apply and_then_Some in H. destruct H as [_ ->].
    split; reflexivity.
  - reflexivity.
  - intros f H. apply and_then_Some in H. destruct H as [_ ->]. simpl.
    destruct (hasError props); discriminate.
Qed.

(** ** Trailing affordances *)

(** X2.  The spinner is rendered exactly while [loading]; while it is, neither
    button is in the tree and neither click can be dispatched. The reveal
    toggle is rendered exactly for a password field that is not loading. *)
Theorem loading_replaces_buttons props st :
  ((exists i, spinner_el (InputField props st) = Some i) <->
   loading props = true) /\
  (loading props = true ->
     clear_button (InputField props st) = None /\
     password_toggle (InputField props st) = None /\
     dispatch props st ClickClear = None /\
     dispatch props st ClickToggle = None) /\
  ((exists b, password_toggle (InputField props st) = Some b) <->
   type props = password /\ loading props = false).
Proof.
  split; [|split].
  - unfold InputField; simpl. destruct (loading props); simpl; split.
    + reflexivity.
    + intros _. eexists. reflexivity.
    + intros [? ?]. discriminate.
    + discriminate.
  - intros Hl. rewrite dispatch_ClickClear, dispatch_ClickToggle.
    unfold InputField; simpl. rewrite Hl. simpl.
    rewrite !andb_false_r. simpl. repeat split.
  - unfold InputField; simpl. rewrite <- isPassword_true_iff.
    destruct (isPassword props), (loading props); simpl; split;
      first [ intros [? H]; discriminate H
            | intros [H _]; discriminate H
            | intros _; split; reflexivity
            | intros _; eexists; reflexivity ].
Qed.

(** X3.  The input has the class [pr-12] exactly when a clear button is wanted
    for a non-empty value, or the field is a password field, or it is loading;
    hence whenever one of the three trailing elements is rendered. *)
Theorem right_padding_reserved props st :
  DOM.hasClass "pr-12" (input_className (input_el (InputField props st)))
  = (showClearButton props && hasValue props) || isPassword props
    || loading props /\
  ((exists i, spinner_el (InputField props st) = Some i) \/
   (exists b, clear_button (InputField props st) = Some b) \/
   (exists b, password_toggle (InputField props st) = Some b) ->
   DOM.hasClass "pr-12" (input_className (input_el (InputField props st)))
   = true).
Proof.
  assert (E : DOM.hasClass "pr-12"
                (input_className (input_el (InputField props st)))
              = (showClearButton props && hasValue props)
                || isPassword props || loading props).
  { unfold InputField; cbn [input_el input_className].
    rewrite !hasClass_app_space, hasClass_app_String_space,
      getVariantClasses_no_padding.
    destruct (size props);
      destruct ((showClearButton props && hasValue props)
                || isPassword props || loading props); reflexivity. }
  split; [exact E|]. rewrite E. unfold InputField; simpl.
  intros [[i H] | [[b H] | [b H]]]; apply and_then_Some in H;
    destruct H as [H _].
  - rewrite H. apply orb_true_r.
  - repeat rewrite andb_true_iff in H. destruct H as [[[-> ->] _] _].
    reflexivity.
  - apply andb_true_iff in H. destruct H as [-> _].
    rewrite orb_true_r. reflexivity.
Qed.

(** X4.  The reveal toggle describes the state it is in: it is labelled "Hide
    password" exactly when the input is rendered as [text], "Show password"
    exactly when it is rendered as [password], it shows the crossed eye
    exactly when revealed, and its click sets the reveal flag to the opposite
    of the rendered one. *)
Theorem toggle_reflects_reveal props st (b : ButtonEl OnChange OnClear) :
  password_toggle (InputField props st) = Some b ->
  (button_aria_label b = "Hide password" <->
   input_type (input_el (InputField props st)) = text) /\
  (button_aria_label b = "Show password" <->
   input_type (input_el (InputField props st)) = password) /\
  (icon (button_child b) = EyeOff <-> showPassword st = true) /\
  button_onClick b = [setShowPassword (negb (showPassword st))].
Proof.
  unfold InputField; simpl. intros H. apply and_then_Some in H.
  destruct H as [Hc ->]. apply andb_true_iff in Hc. destruct Hc as [Hp _].
  simpl. unfold inputType. rewrite Hp.
  destruct (showPassword st); simpl; repeat split; intros;
    try reflexivity; discriminate.
Qed.

(** ** Events *)

Lemma handlerOf_shape props st ev (h : Handler OnChange OnClear) :
  handlerOf props st ev = Some h ->
  (ev = ClickClear /\ h = handleClear props) \/
  (ev = ClickToggle /\ h = [setShowPassword (negb (showPassword st))]) \/
  (ev = Focus /\ h = [setIsFocused true]) \/
  (ev = Blur /\ h = [setIsFocused false]) \/
  (exists s, ev = Typing s /\
     h = match onChange props with
         | Some g => [invoke (call_onChange g {| target_value := s |})]
         | None => []
         end).
Proof.
  unfold handlerOf, InputField; simpl. destruct ev; simpl.
  - destruct (showClearButton props && hasValue props
              && negb (loading props) && negb (disabled props)); simpl;
      [|discriminate].
    intros H. injection H as <-. left. split; reflexivity.
  - destruct (isPassword props && negb (loading props)); simpl;
      [|discriminate].
    intros H. injection H as <-. right; left. split; reflexivity.
  - destruct (disabled props); [discriminate|].
    intros H. injection H as <-. right; right; left. split; reflexivity.
  - destruct (disabled props); [discriminate|].
    intros H. injection H as <-. right; right; right; left.
    split; reflexivity.
  - destruct (disabled props); [discriminate|].
    intros H. injection H as <-. right; right; right; right.
    exists newText. split; reflexivity.
Qed.

(** X5.  Whatever event is dispatched: only the reveal toggle changes the
    reveal flag, only focus and blur change the focus flag, an event that
    invokes a callback changes no state and is a click on the clear button or
    a keystroke, at most one callback is invoked, and it is one of the two the
    caller supplied. *)
Theorem events_touch_one_thing props st ev st'
    (cs : list (Call OnChange OnClear)) :
  dispatch props st ev = Some (st', cs) ->
  (showPassword st' <> showPassword st -> ev = ClickToggle) /\
  (isFocused st' <> isFocused st -> ev = Focus \/ ev = Blur) /\
  (cs <> [] -> st' = st /\ (ev = ClickClear \/ exists s, ev = Typing s)) /\
  length cs <= 1 /\
  (forall c, In c cs ->
     match c with
     | call_onClear f => onClear props = Some f
     | call_onChange g _ => onChange props = Some g
     end).
Proof.
  unfold dispatch. destruct (handlerOf props st ev) as [h|] eqn:Hh;
    [|discriminate].
  simpl. intros H. injection H as <- <-.
  apply handlerOf_shape in Hh.
  destruct Hh as [[-> ->] | [[-> ->] | [[-> ->] | [[-> ->] | (s & -> & ->)]]]].
  - unfold handleClear.
    destruct (onClear props) as [f|] eqn:Ec;
      [|destruct (onChange props) as [g|] eqn:Eg]; simpl;
      repeat split; try tauto; auto;
      try (intros c [<-|[]]; reflexivity).
  - simpl. repeat split; try tauto; auto; try (intros ? []).
  - simpl. repeat split; try tauto; auto; try (intros ? []).
  - simpl. repeat split; try tauto; auto; try (intros ? []).
  - destruct (onChange props) as [g|] eqn:Eg; simpl;
      repeat split; try tauto; auto;
      try (right; exists s; reflexivity);
      try (intros c [<-|[]]; reflexivity).
Qed.

(** ** Footer and description *)

(** X6.  Whenever the footer is rendered it is the element the input is
    described by: [aria-describedby] is the footer's identifier and that
    identifier resolves to the footer. *)
Theorem rendered_footer_is_description props st (f : FooterEl) :
  footer_el (InputField props st) = Some f ->
  aria_describedby (input_el (InputField props st)) = Some (footer_id f) /\
  getElementById (InputField props st) (footer_id f) = Some (FooterNode f).
Proof.
  intros Hf. unfold getElementById. rewrite Hf.
  revert Hf. unfold InputField; simpl. intros Hf.
  apply and_then_Some in Hf. destruct Hf as [G ->]. simpl.
  unfold hasError in *.
  destruct (invalid props); simpl.
  - split; reflexivity.
  - destruct (JS.truthy (errorMessage props)); simpl.
    + split; reflexivity.
    + rewrite orb_false_r in G. rewrite G. split; reflexivity.
Qed.

(** X7.  With [invalid] set and no error message, a non-empty helper text is
    not shown: the footer is rendered as the error element and it is empty. *)
Theorem invalid_flag_blanks_helper_text props st (h : string) :
  invalid props = true ->
  JS.truthy (errorMessage props) = false ->
  helperText props = Some h ->
  h <> "" ->
  footer_text (InputField props st) = "" /\
  footer_text (InputField props st) <> h /\
  exists f, footer_el (InputField props st) = Some f /\
            footer_id f = errorId /\
            footer_child f = errorMessage props.
Proof.
  intros Hi He Hh Hne.
  assert (Herr : hasError props = true).
  { apply hasError_true_iff. left. exact Hi. }
  assert (T : JS.truthy (helperText props) = true).
  { apply truthy_true_iff. exists h. split; assumption. }
  destruct (footer_el_cases props st) as [[G _] | [_ (f & E & I & C)]].
  - rewrite T in G. discriminate.
  - rewrite Herr in I, C.
    assert (Ht : footer_text (InputField props st) = "").
    { unfold footer_text. rewrite E, C.
      apply truthy_false_child_text. exact He. }
    split; [exact Ht|]. split.
    + rewrite Ht. congruence.
    + exists f. repeat split; assumption.
Qed.

(** ** Theme and caller classes *)


End MoreFacts.

(** The guard of the clear button (line 158). *)
Lemma clear_button_shown_iff {OnChange OnClear : Type}
    (props : InputFieldProps OnChange OnClear) st :
  (exists b, clear_button (InputField props st) = Some b) <->
  showClearButton props = true /\ value props <> "" /\
  loading props = false /\ disabled props = false.
Proof.
  unfold InputField; simpl. rewrite <- hasValue_true_iff. split.
  - intros (b & Hb). apply and_then_Some in Hb. destruct Hb as [Hc _].
    repeat rewrite andb_true_iff in Hc. rewrite !negb_true_iff in Hc. tauto.
  - intros (H1 & H2 & H3 & H4). rewrite H1, H2, H3, H4. simpl.
    eexists. reflexivity.
Qed.

(** A dispatched event, by cases. *)
Lemma dispatch_cases {OnChange OnClear : Type}
    (props : InputFieldProps OnChange OnClear) st ev st' cs :
  dispatch props st ev = Some (st', cs) ->
  (ev = ClickClear /\ st' = st /\ cs = calls (handleClear props)) \/
  (ev = ClickToggle /\
   st' = {| showPassword := negb (showPassword st);
            isFocused := isFocused st |} /\ cs = []) \/
  (ev = Focus /\
   st' = {| showPassword := showPassword st; isFocused := true |} /\
   cs = []) \/
  (ev = Blur /\
   st' = {| showPassword := showPassword st; isFocused := false |} /\
   cs = []) \/
  (exists s, ev = Typing s /\ st' = st /\
     cs = match onChange props with
          | Some g => [call_onChange g {| target_value := s |}]
          | None => []
          end).
Proof.
  unfold dispatch. destruct (handlerOf props st ev) as [h|] eqn:Hh;
    [|discriminate].
  simpl. intros H. injection H as <- <-.
  apply handlerOf_shape in Hh.
  destruct Hh as [[-> ->] | [[-> ->] | [[-> ->] | [[-> ->] | (s & -> & ->)]]]].
  - left. split; [reflexivity|]. split; [|reflexivity].
    unfold handleClear.
    destruct (onClear props); [|destruct (onChange props)]; reflexivity.
  - right; left. repeat split.
  - right; right; left. repeat split.
  - right; right; right; left. repeat split.
  - right; right; right; right. exists s. split; [reflexivity|].
    destruct (onChange props); split; reflexivity.
Qed.

(** * Properties of the demonstration harness *)

(** ** The [values] object *)

(** Reading a field after [{ ...prev, [f]: v }]. *)
Lemma get_set (prev : InputDemo.Values) (f g v : string) :
  InputDemo.get (InputDemo.set prev f v) g
  = if f =? g then Some v else InputDemo.get prev g.
Proof.
  induction prev as [|[k w] rest IH]; simpl.
  - reflexivity.
  - destruct (k =? f) eqn:Ekf; simpl.
    + apply String.eqb_eq in Ekf. subst k.
      destruct (f =? g); reflexivity.
    + rewrite IH. destruct (k =? g) eqn:Ekg; [|reflexivity].
      apply String.eqb_eq in Ekg. subst g. rewrite String.eqb_sym, Ekf.
      reflexivity.
Qed.

(** The fields after [{ ...prev, [f]: v }]. *)
Lemma set_keys (prev : InputDemo.Values) (f v : string) :
  map fst (InputDemo.set prev f v)
  = if existsb (String.eqb f) (map fst prev) then map fst prev
    else (map fst prev ++ [f])%list.
Proof.
  induction prev as [|[k w] rest IH]; simpl.
  - reflexivity.
  - rewrite (String.eqb_sym f k). destruct (k =? f); simpl.
    + reflexivity.
    + rewrite IH. destruct (existsb (String.eqb f) (map fst rest));
        reflexivity.
Qed.

(** A later update of a field replaces an earlier one. *)
Lemma set_set (prev : InputDemo.Values) (f v w : string) :
  InputDemo.set (InputDemo.set prev f v) f w = InputDemo.set prev f w.
Proof.
  induction prev as [|[k x] rest IH]; simpl.
  - rewrite String.eqb_refl. reflexivity.
  - destruct (k =? f) eqn:Ekf; simpl; rewrite Ekf.
    + reflexivity.
    + rewrite IH. reflexivity.
Qed.

(** X9.  After [handleChange(f)] has run on an event, field [f] reads as the
    event's text; after [handleClear(f)] it reads as the empty string; every
    other field reads as before. *)
Theorem closures_store_text (prev : InputDemo.Values) (f g : string)
    (e : ChangeEvent) :
  InputDemo.get
    (InputDemo.invoked (call_onChange (InputDemo.handleChange f) e) prev) g
  = (if f =? g then Some (target_value e) else InputDemo.get prev g) /\
  InputDemo.get
    (InputDemo.invoked (call_onClear (InputDemo.handleClear f)) prev) g
  = (if f =? g then Some "" else InputDemo.get prev g).
Proof. simpl. split; apply get_set. Qed.


(** X11.  Clearing a field makes an earlier change of it unobservable, a later
    change overrides the clearing, and clearing twice is clearing once. *)
Theorem clear_absorbs_change (prev : InputDemo.Values) (f : string)
    (e : ChangeEvent) :
  InputDemo.invoked (call_onClear (InputDemo.handleClear f))
    (InputDemo.invoked (call_onChange (InputDemo.handleChange f) e) prev)
  = InputDemo.invoked (call_onClear (InputDemo.handleClear f)) prev /\
  InputDemo.invoked (call_onChange (InputDemo.handleChange f) e)
    (InputDemo.invoked (call_onClear (InputDemo.handleClear f)) prev)
  = InputDemo.invoked (call_onChange (InputDemo.handleChange f) e) prev /\
  InputDemo.invoked (call_onClear (InputDemo.handleClear f))
    (InputDemo.invoked (call_onClear (InputDemo.handleClear f)) prev)
  = InputDemo.invoked (call_onClear (InputDemo.handleClear f)) prev.
Proof. simpl. repeat split; apply set_set. Qed.

Lemma get_of_key (prev : InputDemo.Values) (f : string) :
  In f (map fst prev) -> exists v, InputDemo.get prev f = Some v.
Proof.
  induction prev as [|[k w] rest IH]; simpl.
  - intros [].
  - intros [-> | H].
    + rewrite String.eqb_refl. eexists. reflexivity.
    + destruct (k =? f); [eexists; reflexivity | exact (IH H)].
Qed.

Lemma Slot_eqb_eq (a b : InputDemo.Slot) :
  InputDemo.Slot_eqb a b = true -> a = b.
Proof. destruct a, b; simpl; intros H; try reflexivity; discriminate. Qed.

(** ** What the controls of the page can do to [values] *)

(** The fields the harness's closures are bound to. *)
Lemma demo_calls_update_bound_field (s : InputDemo.Slot)
    (v : InputDemo.Values) (th : Theme) st ev st' cs :
  dispatch (InputDemo.controlProps s v th) st ev = Some (st', cs) ->
  cs = [] \/
  exists f x,
    In f ["basic"; "email"; "password"; "error"; "loading"] /\
    fold_left (fun v c => InputDemo.invoked c v) cs v = InputDemo.set v f x.
Proof.
  intros H. apply dispatch_cases in H.
  destruct H as [(_ & _ & ->) | [(_ & _ & ->) | [(_ & _ & ->)
                | [(_ & _ & ->) | (x & _ & _ & ->)]]]];
    try (left; reflexivity).
  - destruct s; simpl;
      first [ left; reflexivity
            | right; eexists; eexists; split; [|reflexivity];
              simpl; tauto ].
  - destruct s; simpl;
      first [ left; reflexivity
            | right; eexists; eexists; split; [|reflexivity];
              simpl; tauto ].
Qed.

Lemma demoStep_values (d d' : InputDemo.DemoState) ev :
  InputDemo.demoStep d ev = Some d' ->
  InputDemo.values d' = InputDemo.values d \/
  exists f x,
    In f ["basic"; "email"; "password"; "error"; "loading"] /\
    InputDemo.values d' = InputDemo.set (InputDemo.values d) f x.
Proof.
  destruct ev as [|s e]; simpl.
  - intros H. injection H as <-. left. reflexivity.
  - destruct (dispatch _ _ e) as [[st' cs]|] eqn:D; [|discriminate].
    intros H. injection H as <-. simpl.
    apply demo_calls_update_bound_field in D.
    destruct D as [-> | D]; [left; reflexivity | right; exact D].
Qed.

(** X12.  In every state the page can reach, [values] has exactly the six
    fields it started with, in their order, so each of them reads as a string. *)
Theorem reachable_values_keep_fields (d : InputDemo.DemoState) :
  InputDemo.Reachable d ->
  map fst (InputDemo.values d)
  = ["basic"; "email"; "password"; "disabled"; "error"; "loading"] /\
  (forall f, In f ["basic"; "email"; "password"; "disabled"; "error";
                   "loading"] ->
     exists v, InputDemo.get (InputDemo.values d) f = Some v).
Proof.
  intros R.
  assert (K : map fst (InputDemo.values d)
              = ["basic"; "email"; "password"; "disabled"; "error";
                 "loading"]).
  { induction R as [|d ev d' R IH S].
    - reflexivity.
    - apply demoStep_values in S. destruct S as [-> | (f & x & I & ->)].
      + exact IH.
      + rewrite set_keys, IH.
        simpl in I.
        destruct I as [<- | [<- | [<- | [<- | [<- | []]]]]]; reflexivity. }
  split; [exact K|]. intros f I. apply get_of_key. rewrite K. exact I.
Qed.

(** X13.  No event sequence changes the text of the disabled demo field. *)
Theorem disabled_text_is_frozen (d : InputDemo.DemoState) :
  InputDemo.Reachable d ->
  InputDemo.get (InputDemo.values d) "disabled" = Some "Disabled input" /\
  input_value (input_el (InputDemo.rendered d InputDemo.Disabled))
  = "Disabled input".
Proof.
  intros R.
  assert (G : InputDemo.get (InputDemo.values d) "disabled"
              = Some "Disabled input").
  { induction R as [|d ev d' R IH S].
    - reflexivity.
    - apply demoStep_values in S. destruct S as [-> | (f & x & I & ->)].
      + exact IH.
      + rewrite get_set, IH. simpl in I.
        destruct I as [<- | [<- | [<- | [<- | [<- | []]]]]]; reflexivity. }
  split; [exact G|].
  unfold InputDemo.rendered, InputField; simpl. unfold value; simpl.
  rewrite G. reflexivity.
Qed.

(** ** Controlled round trips *)

(** X14.  Typing into a control that is bound to a field stores the text in
    that field and nowhere else, leaves the theme and every hook cell alone,
    and the next render shows the text in that control and in every other
    control bound to the same field. *)
Theorem demo_typing_round_trip (d : InputDemo.DemoState)
    (s : InputDemo.Slot) (f txt : string) :
  Props.onChange
    (InputDemo.controlProps s (InputDemo.values d) (InputDemo.theme d))
  = Some (InputDemo.handleChange f) ->
  exists d',
    InputDemo.demoStep d (InputDemo.At s (Typing txt)) = Some d' /\
    InputDemo.get (InputDemo.values d') f = Some txt /\
    (forall g, g <> f ->
       InputDemo.get (InputDemo.values d') g
       = InputDemo.get (InputDemo.values d) g) /\
    InputDemo.theme d' = InputDemo.theme d /\
    (forall s', InputDemo.hooks d' s' = InputDemo.hooks d s') /\
    (forall s',
       Props.onChange
         (InputDemo.controlProps s' (InputDemo.values d') (InputDemo.theme d'))
       = Some (InputDemo.handleChange f) ->
       input_value (input_el (InputDemo.rendered d' s')) = txt).
Proof.
  intros Hb.
  exists {| InputDemo.values := InputDemo.set (InputDemo.values d) f txt;
            InputDemo.theme := InputDemo.theme d;
            InputDemo.hooks :=
              fun s' => if InputDemo.Slot_eqb s' s then InputDemo.hooks d s
                        else InputDemo.hooks d s' |}.
  split; [|split; [|split; [|split; [|split]]]].
  - destruct s; simpl in Hb; try discriminate Hb;
      injection Hb as <-; reflexivity.
  - simpl. rewrite get_set, String.eqb_refl. reflexivity.
  - intros g Hg. simpl. rewrite get_set.
    destruct (f =? g) eqn:E; [|reflexivity].
    apply String.eqb_eq in E. congruence.
  - reflexivity.
  - intros s'. simpl. destruct (InputDemo.Slot_eqb s' s) eqn:E;
      [apply Slot_eqb_eq in E; subst s'|]; reflexivity.
  - intros s' Hs'. unfold InputDemo.rendered, InputField; simpl.
    unfold value.
    destruct s'; simpl in Hs'; try discriminate Hs';
      injection Hs' as <-; simpl;
      rewrite get_set, String.eqb_refl; reflexivity.
Qed.

(** X15.  A clear button is rendered on the page only for the outlined and the
    email control. Clicking it empties the field the control is bound to; the
    next render of the control shows no text and no clear button. *)
Theorem demo_clear_empties_field (d : InputDemo.DemoState)
    (s : InputDemo.Slot)
    (b : ButtonEl InputDemo.ChangeHandler InputDemo.ClearHandler) :
  clear_button (InputDemo.rendered d s) = Some b ->
  (s = InputDemo.Outlined \/ s = InputDemo.Email) /\
  exists d' f,
    InputDemo.demoStep d (InputDemo.At s ClickClear) = Some d' /\
    Props.onClear
      (InputDemo.controlProps s (InputDemo.values d) (InputDemo.theme d))
    = Some (InputDemo.handleClear f) /\
    InputDemo.values d' = InputDemo.set (InputDemo.values d) f "" /\
    input_value (input_el (InputDemo.rendered d' s)) = "" /\
    clear_button (InputDemo.rendered d' s) = None.
Proof.
  unfold InputDemo.rendered. intros Hb.
  assert (Hr : exists b', clear_button
                 (InputField (InputDemo.controlProps s (InputDemo.values d)
                                (InputDemo.theme d)) (InputDemo.hooks d s))
               = Some b') by (exists b; exact Hb).
  apply clear_button_shown_iff in Hr. destruct Hr as (Hs & Hv & Hl & Hd).
  apply hasValue_true_iff in Hv.
  destruct s; try discriminate Hs.
  - split; [left; reflexivity|].
    eexists. exists "basic". split; [|split; [|split; [|split]]].
    + unfold InputDemo.demoStep. rewrite dispatch_ClickClear, Hs, Hv, Hl, Hd.
      reflexivity.
    + reflexivity.
    + reflexivity.
    + simpl. unfold value; simpl. rewrite get_set. reflexivity.
    + simpl. unfold hasValue, value; simpl. rewrite get_set. reflexivity.
  - split; [right; reflexivity|].
    eexists. exists "email". split; [|split; [|split; [|split]]].
    + unfold InputDemo.demoStep. rewrite dispatch_ClickClear, Hs, Hv, Hl, Hd.
      reflexivity.
    + reflexivity.
    + reflexivity.
    + simpl. unfold value; simpl. rewrite get_set. reflexivity.
    + simpl. unfold hasValue, value; simpl. rewrite get_set. reflexivity.
Qed.

(** ** What the page never does *)

(** X16.  An event on a control that was given no change callback (the size
    gallery and the disabled field) never changes [values] or the theme. *)
Theorem unbound_controls_are_inert (d d' : InputDemo.DemoState)
    (s : InputDemo.Slot) (ev : UserEvent) :
  Props.onChange
    (InputDemo.controlProps s (InputDemo.values d) (InputDemo.theme d))
  = None ->
  InputDemo.demoStep d (InputDemo.At s ev) = Some d' ->
  InputDemo.values d' = InputDemo.values d /\
  InputDemo.theme d' = InputDemo.theme d.
Proof.
  intros Hn. unfold InputDemo.demoStep.
  destruct (dispatch _ _ ev) as [[st' cs]|] eqn:D; [|discriminate].
  intros H. injection H as <-. simpl. split; [|reflexivity].
  apply dispatch_cases in D.
  destruct D as [(_ & _ & ->) | [(_ & _ & ->) | [(_ & _ & ->)
                | [(_ & _ & ->) | (x & _ & _ & ->)]]]];
    try reflexivity;
    destruct s; simpl in Hn; try discriminate Hn; reflexivity.
Qed.

(** X17.  The reveal toggle exists on the password control only; clicking it
    flips that control's reveal flag and touches neither [values], the theme,
    nor the hook cells of any other control. *)
Theorem demo_reveal_is_local (d d' : InputDemo.DemoState)
    (s : InputDemo.Slot) :
  InputDemo.demoStep d (InputDemo.At s ClickToggle) = Some d' ->
  s = InputDemo.Password /\
  InputDemo.values d' = InputDemo.values d /\
  InputDemo.theme d' = InputDemo.theme d /\
  showPassword (InputDemo.hooks d' InputDemo.Password)
  = negb (showPassword (InputDemo.hooks d InputDemo.Password)) /\
  (forall s', s' <> InputDemo.Password ->
     InputDemo.hooks d' s' = InputDemo.hooks d s').
Proof.
  unfold InputDemo.demoStep. rewrite dispatch_ClickToggle.
  destruct s; simpl; try discriminate.
  intros H. injection H as <-. simpl.
  repeat split. intros s' Hs'.
  destruct (InputDemo.Slot_eqb s' InputDemo.Password) eqn:E;
    [apply Slot_eqb_eq in E; contradiction | reflexivity].
Qed.

(** X18.  The theme button changes the theme and nothing else, two clicks
    restore it, and in every state each of the eleven controls has the class
    [dark] on its root exactly when the page theme is dark. *)
Theorem theme_reaches_every_control (d : InputDemo.DemoState) :
  (forall s,
     DOM.hasClass "dark" (root_className (InputDemo.rendered d s))
     = match InputDemo.theme d with dark => true | light => false end) /\
  exists d' d'',
    InputDemo.demoStep d InputDemo.ClickThemeButton = Some d' /\
    InputDemo.demoStep d' InputDemo.ClickThemeButton = Some d'' /\
    InputDemo.theme d' <> InputDemo.theme d /\
    InputDemo.theme d'' = InputDemo.theme d /\
    InputDemo.values d' = InputDemo.values d /\
    (forall s, InputDemo.hooks d' s = InputDemo.hooks d s).
Proof.
  split.
  - intros s. unfold InputDemo.rendered, InputField; simpl.
    unfold themeClasses, theme, className.
    destruct s; simpl; destruct (InputDemo.theme d); reflexivity.
  - eexists. eexists. split; [reflexivity|]. split; [reflexivity|].
    simpl. destruct (InputDemo.theme d); repeat split; discriminate.
Qed.

(** ** Concrete configurations and runs *)

Lemma toggle_reflects_reveal_witness :
  exists b,
    password_toggle (InputField Examples.secret_password initialState)
    = Some b /\
    button_aria_label b = "Show password" /\
    button_onClick b = [setShowPassword true].
Proof.
  eexists. split; [reflexivity|].
  destruct (toggle_reflects_reveal Examples.secret_password initialState _
              eq_refl) as (_ & S & _ & C).
  split; [apply S; reflexivity | exact C].
Defined.

Lemma events_touch_one_thing_witness :
  dispatch Examples.abc_clearable_controlled initialState (Typing "abcd")
  = Some (initialState,
          [call_onChange (InputDemo.handleChange "basic")
             {| target_value := "abcd" |}]) /\
  onChange Examples.abc_clearable_controlled
  = Some (InputDemo.handleChange "basic").
Proof.
  split; [reflexivity|].
  destruct (events_touch_one_thing Examples.abc_clearable_controlled
              initialState (Typing "abcd") initialState _ eq_refl)
    as (_ & _ & _ & _ & C).
  exact (C _ (or_introl eq_refl)).
Defined.

Lemma rendered_footer_is_description_witness :
  exists f,
    footer_el (InputField
                 (InputDemo.errorField InputDemo.initialValues light)
                 initialState) = Some f /\
    aria_describedby
      (input_el (InputField
                   (InputDemo.errorField InputDemo.initialValues light)
                   initialState)) = Some (footer_id f).
Proof.
  eexists. split; [reflexivity|].
  apply (rendered_footer_is_description
           (InputDemo.errorField InputDemo.initialValues light) initialState
           _ eq_refl).
Defined.

Lemma invalid_flag_blanks_helper_text_witness :
  invalid Examples.invalid_with_hint = true /\
  footer_text (InputField Examples.invalid_with_hint initialState) = "" /\
  footer_text (InputField Examples.invalid_with_hint initialState) <> "hint".
Proof.
  split; [reflexivity|].
  destruct (invalid_flag_blanks_helper_text Examples.invalid_with_hint
              initialState "hint" eq_refl eq_refl eq_refl) as (E & N & _).
  - discriminate.
  - split; [exact E | exact N].
Defined.

(** The page after "a" was typed into the ghost control. *)
Lemma reachable_after_typing :
  exists d,
    InputDemo.demoStep InputDemo.initialDemo
      (InputDemo.At InputDemo.Ghost (Typing "a")) = Some d /\
    InputDemo.Reachable d /\
    InputDemo.values d
    = [ ("basic", "a"); ("email", ""); ("password", "");
        ("disabled", "Disabled input"); ("error", "Invalid value");
        ("loading", "Loading...") ].
Proof.
  eexists. split; [reflexivity|]. split; [|reflexivity].
  exact (InputDemo.reach_step InputDemo.initialDemo
           (InputDemo.At InputDemo.Ghost (Typing "a")) _
           InputDemo.reach_initial eq_refl).
Qed.

Lemma reachable_values_keep_fields_witness :
  exists d,
    InputDemo.demoStep InputDemo.initialDemo
      (InputDemo.At InputDemo.Ghost (Typing "a")) = Some d /\
    map fst (InputDemo.values d)
    = ["basic"; "email"; "password"; "disabled"; "error"; "loading"].
Proof.
  eexists. split; [reflexivity|].
  apply (reachable_values_keep_fields _
           (InputDemo.reach_step InputDemo.initialDemo
              (InputDemo.At InputDemo.Ghost (Typing "a")) _
              InputDemo.reach_initial eq_refl)).
Defined.

Lemma disabled_text_is_frozen_witness :
  exists d,
    InputDemo.demoStep InputDemo.initialDemo
      (InputDemo.At InputDemo.Email (Typing "disabled")) = Some d /\
    InputDemo.get (InputDemo.values d) "disabled" = Some "Disabled input".
Proof.
  eexists. split; [reflexivity|].
  apply (disabled_text_is_frozen _
           (InputDemo.reach_step InputDemo.initialDemo
              (InputDemo.At InputDemo.Email (Typing "disabled")) _
              InputDemo.reach_initial eq_refl)).
Defined.

Lemma demo_typing_round_trip_witness :
  exists d',
    InputDemo.demoStep InputDemo.initialDemo
      (InputDemo.At InputDemo.Ghost (Typing "abc")) = Some d' /\
    input_value (input_el (InputDemo.rendered d' InputDemo.Outlined)) = "abc".
Proof.
  destruct (demo_typing_round_trip InputDemo.initialDemo InputDemo.Ghost
              "basic" "abc" eq_refl) as (d' & S & _ & _ & _ & _ & V).
  exists d'. split; [exact S | exact (V InputDemo.Outlined eq_refl)].
Defined.

Lemma demo_clear_empties_field_witness :
  let d := {| InputDemo.values := [("basic", "abc")];
              InputDemo.theme := light;
              InputDemo.hooks := fun _ => initialState |} in
  exists d',
    InputDemo.demoStep d (InputDemo.At InputDemo.Outlined ClickClear)
    = Some d' /\
    InputDemo.values d' = [("basic", "")].
Proof.
  intros d.
  destruct (demo_clear_empties_field d InputDemo.Outlined _ eq_refl)
    as (_ & d' & f & S & F & V & _).
  exists d'. split; [exact S|].
  injection F as <-. exact V.
Defined.

Lemma unbound_controls_are_inert_witness :
  exists d',
    InputDemo.demoStep InputDemo.initialDemo
      (InputDemo.At InputDemo.Small (Typing "x")) = Some d' /\
    InputDemo.values d' = InputDemo.initialValues.
Proof.
  eexists. split; [reflexivity|].
  apply (unbound_controls_are_inert InputDemo.initialDemo _ InputDemo.Small
           (Typing "x") eq_refl eq_refl).
Defined.

Lemma demo_reveal_is_local_witness :
  exists d',
    InputDemo.demoStep InputDemo.initialDemo
      (InputDemo.At InputDemo.Password ClickToggle) = Some d' /\
    showPassword (InputDemo.hooks d' InputDemo.Password) = true /\
    InputDemo.hooks d' InputDemo.Email = initialState.
Proof.
  eexists. split; [reflexivity|].
  destruct (demo_reveal_is_local InputDemo.initialDemo _ InputDemo.Password
              eq_refl) as (_ & _ & _ & R & L).
  split; [exact R | apply L; discriminate].
Defined.
